(** * Smart wind turbine control panel: the telemetry loop of [src/App.tsx]

    The dashboard keeps seven pieces of React state.  A one-second interval
    callback (the tick) draws a wind speed and a direction, derives the blade
    angles and the power, pushes onto three capped histories and adds to the
    energy total.  A range input overwrites the wind speed.  Two banners are
    derived on every render.

    Numbers.  A JavaScript [number] is modelled as an exact rational in
    canonical form ([Qc], Leibniz equality).  The rounding of IEEE-754
    arithmetic is not modelled: every arithmetic operation below is the exact
    one.  [Math.random()] is an argument of the tick. *)

From Stdlib Require Import ZArith QArith Qcanon Qround Qabs Qcabs.
From Stdlib Require Import List Bool Arith Lia Lqa.
From Stdlib Require String.
Import ListNotations.

Open Scope Qc_scope.

(** ** JavaScript numbers and the built-ins the component calls *)

Module Js.

Definition number := Qc.

(** Numeric literals of the source text. *)
Definition lit (q : Q) : number := Q2Qc q.
Definition of_Z (z : Z) : number := Q2Qc (inject_Z z).

(** [a > b] and [a >= b] on numbers. *)
Definition gt (a b : number) : bool :=
  match b ?= a with Lt => true | _ => false end.

Definition ge (a b : number) : bool :=
  match a ?= b with Lt => false | _ => true end.

(** [Math.floor(x)]: the greatest integer not above [x]. *)
Definition Math_floor (x : number) : number := of_Z (Qfloor x).

(** [Math.max(a, b)]. *)
Definition Math_max (a b : number) : number := if gt b a then b else a.

(** [+x.toFixed(digits)]: the number denoted by the string [toFixed]
    builds.  Below [10^21] in magnitude the string is the sign followed by
    [n / 10^digits], where [n] is the integer nearest to
    [|x| * 10^digits], the larger one on a tie; from [10^21] on the string
    is [String(x)], which reads back as [x]. *)
Definition pow10 (digits : nat) : Z := (10 ^ Z.of_nat digits)%Z.

Definition nearest_int (a : number) : Z := Qfloor (a + lit (1 # 2))%Qc.

Definition toFixed (x : number) (digits : nat) : number :=
  let a := Qcabs x in
  if ge a (of_Z (10 ^ 21)) then x
  else
    let m := of_Z (nearest_int (a * of_Z (pow10 digits)))
             / of_Z (pow10 digits) in
    if gt 0 x then - m else m.

(** [arr.slice(-n)]: the start index is [max(arr.length - n, 0)]. *)
Definition slice_neg {A : Type} (n : nat) (arr : list A) : list A :=
  skipn (length arr - n) arr.

(** [arr.some(p)]. *)
Definition some {A : Type} (p : A -> bool) (arr : list A) : bool :=
  existsb p arr.

End Js.

Import Js.

(** ** Component state: the seven [useState] cells of [App] *)

Record State : Type := mkState {
  windSpeed     : number;
  bladeAngles   : list number;
  powerData     : list number;
  windHistory   : list number;
  labels        : list String.string;
  totalEnergy   : number;
  windDirection : number
}.

(** The initial values passed to [useState]. *)
Definition init : State := {|
  windSpeed     := 0;
  bladeAngles   := [0; 0; 0];
  powerData     := [];
  windHistory   := [];
  labels        := [];
  totalEnergy   := 0;
  windDirection := 0
|}.

(** The updater shared by the three history setters:
    [updated = [...prev, x]; updated.length > 20 ? updated.slice(-20) : updated]. *)
Definition push20 {A : Type} (prev : list A) (x : A) : list A :=
  let updated := prev ++ [x] in
  if Nat.ltb 20 (length updated) then slice_neg 20 updated else updated.

(** Values computed at the top of the interval callback from the two
    [Math.random()] results [r1] and [r2]. *)
Definition gen_speed (r1 : number) : number := toFixed (r1 * of_Z 15) 1.
Definition gen_direction (r2 : number) : number := Math_floor (r2 * of_Z 360).
Definition gen_angles (speed : number) : list number :=
  [speed * of_Z 2; speed * of_Z 2 + of_Z 5; speed * of_Z 2 - of_Z 5].
Definition gen_power (speed : number) : number :=
  toFixed (speed * lit 1.5) 1.

(** The interval callback.  Its seven setter calls are applied together,
    as one state transition: the functional updaters see the previous value
    of their own cell, the other setters store the values computed above. *)
Definition tick (r1 r2 : number) (st : State) : State :=
  let speed := gen_speed r1 in
  let direction := gen_direction r2 in
  let angles := gen_angles speed in
  {| windSpeed     := speed;
     windDirection := direction;
     bladeAngles   := angles;
     powerData     := push20 (powerData st) (gen_power speed);
     windHistory   := push20 (windHistory st) speed;
     labels        := push20 (labels st) String.EmptyString;
     totalEnergy   := totalEnergy st + (speed * lit 1.5) / of_Z 60 |}.

(** The range input's [onChange]: [setWindSpeed(Number(e.target.value))],
    where [v] is the number read from the control. *)
Definition onChange (v : number) (st : State) : State :=
  {| windSpeed     := v;
     windDirection := windDirection st;
     bladeAngles   := bladeAngles st;
     powerData     := powerData st;
     windHistory   := windHistory st;
     labels        := labels st;
     totalEnergy   := totalEnergy st |}.

(** ** Render: what is derived from the state *)

Definition bladeWarning (st : State) : bool :=
  some (fun a => gt a (of_Z 90)) (bladeAngles st).

(** [TurbineBlades]: the rotation period handed to the animation. *)
Definition rotationDuration (windSpeed : number) : number :=
  Math_max (lit 0.3) (of_Z 6 - windSpeed / of_Z 3).

Record View : Type := mkView {
  overloadShown     : bool;   (* [windSpeed > 20 && <div>...Overload Risk...] *)
  bladeWarningShown : bool;   (* [bladeWarning && <div>...deviation...] *)
  bladesDuration    : number;
  monitoringBlades  : nat
}.

Definition render (st : State) : View :=
  {| overloadShown     := gt (windSpeed st) (of_Z 20);
     bladeWarningShown := bladeWarning st;
     bladesDuration    := rotationDuration (windSpeed st);
     monitoringBlades  := length (bladeAngles st) |}.

(** ** Events and reachable states *)

Inductive event : Type :=
  | Tick (r1 r2 : number)
  | Override (v : number).

(** [Math.random()] returns a number in [[0, 1)]. *)
Definition random_ok (r : number) : bool := ge r 0 && gt 1 r.

(** A value of the range input ([min=0], [max=25], [step=0.1]): a whole
    number of tenths between 0 and 25. *)
Definition slider_ok (v : number) : bool :=
  ge v 0 && ge (of_Z 25) v && Qc_eq_bool (Math_floor (v * of_Z 10)) (v * of_Z 10).

Definition event_ok (e : event) : bool :=
  match e with
  | Tick r1 r2 => random_ok r1 && random_ok r2
  | Override v => slider_ok v
  end.

Definition step (st : State) (e : event) : State :=
  match e with
  | Tick r1 r2 => tick r1 r2 st
  | Override v => onChange v st
  end.

(** Events are handled one at a time, oldest first. *)
Definition run (evs : list event) (st : State) : State :=
  fold_left step evs st.

Inductive reachable : State -> Prop :=
  | reach_init : reachable init
  | reach_step st e :
      reachable st -> event_ok e = true -> reachable (step st e).

(** The speeds generated by the ticks of a trace, oldest first. *)
Fixpoint tick_speeds (evs : list event) : list number :=
  match evs with
  | [] => []
  | Tick r1 _ :: evs' => gen_speed r1 :: tick_speeds evs'
  | Override _ :: evs' => tick_speeds evs'
  end.

(** The speed of the latest tick of a trace, if any. *)
Definition last_tick_speed (evs : list event) : option number :=
  last (map Some (tick_speeds evs)) None.

(** ** The rest of the render *)

(** The weather card draws two more random numbers on every render:
    [1000 + Math.floor(Math.random() * 20)] hPa and
    [50 + Math.floor(Math.random() * 50)] percent. *)
Definition pressure (r : number) : number :=
  of_Z 1000 + Math_floor (r * of_Z 20).

Definition humidity (r : number) : number :=
  of_Z 50 + Math_floor (r * of_Z 50).

(** The numbers denoted by the strings the cards print:
    [angle.toFixed(0)], [totalEnergy.toFixed(1)] and
    [(totalEnergy * 0.85).toFixed(1)]. *)
Definition bladeShown (angle : number) : number := toFixed angle 0.



(** ** Traces without their overrides, and the energy of a list of speeds *)

Definition is_tick (e : event) : bool :=
  match e with
  | Tick _ _ => true
  | Override _ => false
  end.

Definition ticks_only (evs : list event) : list event := filter is_tick evs.

(** What the ticks that generated the speeds [l] add to the energy total. *)
Definition energy_of (l : list number) : number :=
  fold_right (fun s acc => (s * lit 1.5) / of_Z 60 + acc) 0 l.

(** The distance between two numbers. *)
Definition dist (a b : number) : number := Qcabs (a - b).

(** Two states that differ at most in [windSpeed]. *)
Definition agree_but_windSpeed (a b : State) : Prop :=
  bladeAngles a = bladeAngles b
  /\ powerData a = powerData b
  /\ windHistory a = windHistory b
  /\ labels a = labels b
  /\ totalEnergy a = totalEnergy b
  /\ windDirection a = windDirection b.

(** ** Sample inputs *)

(** The [k]-th sample tick: draws [k/21] for the speed and [k/40] for the
    direction. *)
Definition sample_tick (k : nat) : event :=
  Tick (of_Z (Z.of_nat k) / of_Z 21) (of_Z (Z.of_nat k) / of_Z 40).

(** Twenty-one ticks, with the slider moved to 22 after the tenth. *)
Definition sample_trace : list event :=
  map sample_tick (seq 0 10) ++ [Override (of_Z 22)]
  ++ map sample_tick (seq 10 11).

(** One tick that generates 7.5 m/s, then the slider moved to 22. *)
Definition trace_tick_then_22 : list event :=
  [Tick (lit 0.5) (lit 0.25); Override (of_Z 22)].

(** One tick that generates 7.5 m/s, then the slider moved to its maximum. *)
Definition trace_tick_then_25 : list event :=
  [Tick (lit 0.5) (lit 0.25); Override (of_Z 25)].

(** A state whose blade angles are those derived from 50 m/s. *)
Definition state_at_50 : State :=
  {| windSpeed     := of_Z 50;
     bladeAngles   := gen_angles (of_Z 50);
     powerData     := [];
     windHistory   := [];
     labels        := [];
     totalEnergy   := 0;
     windDirection := 0 |}.

(** ** Arithmetic of the number model *)

(** Moves a goal on canonical rationals to plain rationals, where [lra]
    applies. *)
Ltac to_Q :=
  unfold number, lit, of_Z, Qclt, Qcle, Qcminus, Qcdiv, Qcplus, Qcmult, Qcopp,
    Qcinv, Q2Qc in *;
  cbn [this] in *;
  rewrite ?Qred_correct in *;
  repeat match goal with
    | |- context [inject_Z ?z] =>
        lazymatch z with Z0 => idtac | Zpos _ => idtac | Zneg _ => idtac end;
        change (inject_Z z) with (z # 1)%Q in *
    | H : context [inject_Z ?z] |- _ =>
        lazymatch z with Z0 => idtac | Zpos _ => idtac | Zneg _ => idtac end;
        change (inject_Z z) with (z # 1)%Q in *
    end;
  repeat match goal with
    | |- context [Qinv (Zpos ?a # ?b)] =>
        change (Qinv (Zpos a # b)) with (Zpos b # a)%Q in *
    | H : context [Qinv (Zpos ?a # ?b)] |- _ =>
        change (Qinv (Zpos a # b)) with (Zpos b # a)%Q in *
    end.

Ltac Qc_eq := apply Qc_is_canon; to_Q.

Lemma gt_true (a b : number) : gt a b = true <-> b < a.
Proof.
  unfold gt. rewrite Qclt_alt. destruct (b ?= a); split; congruence.
Qed.

Lemma gt_false (a b : number) : gt a b = false <-> a <= b.
Proof.
  split; intro H.
  - apply Qcnot_lt_le. intro L. apply gt_true in L. congruence.
  - destruct (gt a b) eqn:E; [|reflexivity].
    apply gt_true in E. exfalso. exact (Qcle_not_lt _ _ H E).
Qed.

Lemma ge_true (a b : number) : ge a b = true <-> b <= a.
Proof.
  unfold ge. split; intro H.
  - apply Qcnot_lt_le. rewrite Qclt_alt. destruct (a ?= b); congruence.
  - destruct (a ?= b) eqn:E; try reflexivity.
    apply Qclt_alt in E. exfalso. exact (Qcle_not_lt _ _ H E).
Qed.

Lemma ge_false (a b : number) : ge a b = false <-> a < b.
Proof.
  unfold ge. rewrite Qclt_alt. destruct (a ?= b); split; congruence.
Qed.

Lemma random_ok_spec (r : number) : random_ok r = true <-> 0 <= r /\ r < 1.
Proof.
  unfold random_ok. rewrite andb_true_iff, ge_true, gt_true. tauto.
Qed.

Lemma of_Z_le (a b : Z) : (a <= b)%Z -> of_Z a <= of_Z b.
Proof.
  intro H. unfold of_Z, Qcle, Q2Qc. cbn [this].
  rewrite !Qred_correct. now rewrite <- Zle_Qle.
Qed.

Lemma of_Z_le_inv (a b : Z) : of_Z a <= of_Z b -> (a <= b)%Z.
Proof.
  unfold of_Z, Qcle, Q2Qc. cbn [this].
  rewrite !Qred_correct. now rewrite <- Zle_Qle.
Qed.

(** [nearest_int] of a number between two integers stays between them. *)
Lemma nearest_int_bounds (a : number) (lo hi : Z) :
  of_Z lo <= a -> a <= of_Z hi -> (lo <= nearest_int a <= hi)%Z.
Proof.
  intros Hlo Hhi. unfold nearest_int.
  assert (L : (inject_Z lo <= this (a + lit (1 # 2)))%Q) by (to_Q; lra).
  assert (U : (this (a + lit (1 # 2)) <= inject_Z hi + (1 # 2))%Q) by (to_Q; lra).
  split.
  - apply Qfloor_resp_le in L. rewrite Qfloor_Z in L. exact L.
  - pose proof (Qfloor_le (this (a + lit (1 # 2)))) as F.
    assert (S : (inject_Z (Qfloor (this (a + lit (1 # 2)))) < inject_Z (hi + 1))%Q).
    { rewrite inject_Z_plus. change (inject_Z 1) with 1%Q. lra. }
    rewrite <- Zlt_Qlt in S. lia.
Qed.

(** Below [10^21] and at or above zero, [toFixed] is the rounding branch. *)
Lemma toFixed_nonneg (x : number) (digits : nat) :
  0 <= x -> x < of_Z (10 ^ 21) ->
  toFixed x digits
  = of_Z (nearest_int (x * of_Z (pow10 digits))) / of_Z (pow10 digits).
Proof.
  intros H0 H1. unfold toFixed. rewrite (Qcabs_pos x H0).
  assert (G : ge x (of_Z (10 ^ 21)) = false) by now apply ge_false.
  assert (S : gt 0 x = false) by now apply gt_false.
  cbv zeta. now rewrite G, S.
Qed.

(** ** What a tick generates *)

(** The generated speed is a whole number of tenths between 0 and 15. *)
Lemma gen_speed_tenths (r : number) :
  random_ok r = true ->
  exists n : Z, (0 <= n <= 150)%Z /\ gen_speed r = of_Z n / of_Z 10.
Proof.
  intro R. apply random_ok_spec in R. destruct R as [R0 R1].
  unfold gen_speed.
  assert (X0 : 0 <= r * of_Z 15) by (to_Q; lra).
  assert (X1 : r * of_Z 15 < of_Z (10 ^ 21)).
  { change (10 ^ 21)%Z with 1000000000000000000000%Z. to_Q. lra. }
  rewrite (toFixed_nonneg _ 1 X0 X1). change (pow10 1) with 10%Z.
  exists (nearest_int (r * of_Z 15 * of_Z 10)). split; [|reflexivity].
  apply nearest_int_bounds; to_Q; lra.
Qed.

Lemma tenths_range (n : Z) :
  (0 <= n <= 150)%Z -> 0 <= of_Z n / of_Z 10 /\ of_Z n / of_Z 10 <= of_Z 15.
Proof.
  intros [L U].
  apply of_Z_le in L. apply of_Z_le in U.
  split; to_Q; lra.
Qed.

Lemma gen_speed_range (r : number) :
  random_ok r = true -> 0 <= gen_speed r /\ gen_speed r <= of_Z 15.
Proof.
  intro R. destruct (gen_speed_tenths r R) as (n & B & ->).
  now apply tenths_range.
Qed.

(** The generated direction is a whole number of degrees from 0 to 359. *)
Lemma gen_direction_degrees (r : number) :
  random_ok r = true ->
  exists z : Z, (0 <= z < 360)%Z /\ gen_direction r = of_Z z.
Proof.
  intro R. apply random_ok_spec in R. destruct R as [R0 R1].
  unfold gen_direction, Math_floor.
  exists (Qfloor (r * of_Z 360)%Qc). split; [|reflexivity].
  assert (L : (inject_Z 0 <= this (r * of_Z 360))%Q) by (to_Q; lra).
  assert (U : (this (r * of_Z 360) < inject_Z 360)%Q) by (to_Q; lra).
  split.
  - apply Qfloor_resp_le in L. rewrite Qfloor_Z in L. exact L.
  - pose proof (Qfloor_le (this (r * of_Z 360))) as F.
    rewrite Zlt_Qlt. lra.
Qed.

(** ** The capped histories *)

Lemma slice_neg_short {A : Type} (n : nat) (l : list A) :
  (length l <= n)%nat -> slice_neg n l = l.
Proof.
  intro H. unfold slice_neg.
  replace (length l - n)%nat with 0%nat by lia. reflexivity.
Qed.

Lemma length_slice_neg {A : Type} (n : nat) (l : list A) :
  length (slice_neg n l) = Nat.min n (length l).
Proof. unfold slice_neg. rewrite length_skipn. lia. Qed.

Lemma length_push20 {A : Type} (prev : list A) (x : A) :
  length (push20 prev x) = Nat.min 20 (S (length prev)).
Proof.
  unfold push20. cbv zeta.
  assert (E : length (prev ++ [x]) = S (length prev)).
  { rewrite length_app. simpl. lia. }
  destruct (Nat.ltb_spec 20 (length (prev ++ [x]))) as [H | H].
  - rewrite length_slice_neg, E. reflexivity.
  - rewrite E in *. lia.
Qed.

(** Pushing onto the last 20 of [h] gives the last 20 of [h] extended. *)
Lemma push20_slice_neg {A : Type} (h : list A) (x : A) :
  push20 (slice_neg 20 h) x = slice_neg 20 (h ++ [x]).
Proof.
  unfold push20. cbv zeta.
  destruct (Nat.le_gt_cases (length h) 19) as [Hs | Hl].
  - rewrite (slice_neg_short 20 h) by lia.
    assert (E : length (h ++ [x]) = S (length h)).
    { rewrite length_app. simpl. lia. }
    destruct (Nat.ltb_spec 20 (length (h ++ [x]))) as [H | H]; [lia|].
    symmetry. apply slice_neg_short. lia.
  - assert (E : length (slice_neg 20 h ++ [x]) = 21%nat).
    { rewrite length_app, length_slice_neg. cbn [length]. lia. }
    rewrite E. change (Nat.ltb 20 21) with true. cbv iota.
    unfold slice_neg at 1. rewrite E.
    unfold slice_neg. rewrite length_app. simpl length.
    replace (length h + 1 - 20)%nat with (1 + (length h - 20))%nat by lia.
    rewrite <- skipn_skipn. f_equal.
    rewrite skipn_app.
    replace (length h - 20 - length h)%nat with 0%nat by lia.
    reflexivity.
Qed.

Lemma slice_neg_map {A B : Type} (f : A -> B) (n : nat) (l : list A) :
  slice_neg n (map f l) = map f (slice_neg n l).
Proof. unfold slice_neg. now rewrite length_map, skipn_map. Qed.

(** A list longer than [n] splits into a prefix and its last [n] items. *)
Lemma slice_neg_split {A : Type} (n : nat) (l : list A) :
  (n <= length l)%nat ->
  l = firstn (length l - n) l ++ slice_neg n l /\ length (slice_neg n l) = n.
Proof.
  intro H. split.
  - unfold slice_neg. now rewrite firstn_skipn.
  - rewrite length_slice_neg. lia.
Qed.

(** ** Traces and reachable states *)

Lemma run_app (evs1 evs2 : list event) (st : State) :
  run (evs1 ++ evs2) st = run evs2 (run evs1 st).
Proof. apply fold_left_app. Qed.

Lemma reachable_run_from (evs : list event) :
  forall st, reachable st -> forallb event_ok evs = true ->
             reachable (run evs st).
Proof.
  induction evs as [| e evs IH]; intros st R Ok; [exact R|].
  cbn [forallb] in Ok. apply andb_true_iff in Ok as [Oe Oevs].
  cbn [run fold_left]. apply IH; [|exact Oevs].
  now apply reach_step.
Qed.

Lemma reachable_run (evs : list event) :
  forallb event_ok evs = true -> reachable (run evs init).
Proof. apply reachable_run_from. exact reach_init. Qed.

Lemma reachable_is_run (st : State) :
  reachable st ->
  exists evs, forallb event_ok evs = true /\ st = run evs init.
Proof.
  induction 1 as [| st e R (evs & Ok & ->) Oe].
  - exists []. split; reflexivity.
  - exists (evs ++ [e]). split.
    + rewrite forallb_app, Ok. cbn. now rewrite Oe.
    + now rewrite run_app.
Qed.

(** The three histories hold the last 20 entries of what was pushed. *)
Lemma run_histories (evs : list event) :
  forall (st : State) (h : list number),
    windHistory st = slice_neg 20 h ->
    powerData st = slice_neg 20 (map gen_power h) ->
    labels st = slice_neg 20 (map (fun _ => String.EmptyString) h) ->
    windHistory (run evs st) = slice_neg 20 (h ++ tick_speeds evs)
    /\ powerData (run evs st)
       = slice_neg 20 (map gen_power (h ++ tick_speeds evs))
    /\ labels (run evs st)
       = slice_neg 20
           (map (fun _ => String.EmptyString) (h ++ tick_speeds evs)).
Proof.
  induction evs as [| [r1 r2 | v] evs IH]; intros st h Hw Hp Hl.
  - cbn [tick_speeds run fold_left]. rewrite app_nil_r. auto.
  - cbn [tick_speeds run fold_left step].
    replace (h ++ gen_speed r1 :: tick_speeds evs)
      with ((h ++ [gen_speed r1]) ++ tick_speeds evs)
      by (now rewrite <- app_assoc).
    apply IH; cbn [tick windHistory powerData labels].
    + rewrite Hw. apply push20_slice_neg.
    + rewrite Hp, map_app. apply push20_slice_neg.
    + rewrite Hl, map_app. apply push20_slice_neg.
  - cbn [tick_speeds run fold_left step]. now apply IH.
Qed.

Lemma last_tick_speed_cons (s : number) (l : list number) :
  last (map Some (s :: l)) None
  = match last (map Some l) None with
    | Some t => Some t
    | None => Some s
    end.
Proof.
  revert s. induction l as [| x l IH]; intro s; [reflexivity|].
  change (last (map Some (s :: x :: l)) None)
    with (last (map Some (x :: l)) None).
  rewrite (IH x). now destruct (last (map Some l) None).
Qed.

(** The blade angles are those of the latest tick, or the ones the trace
    started with. *)
Lemma run_angles (evs : list event) :
  forall st,
    bladeAngles (run evs st)
    = match last_tick_speed evs with
      | Some t => gen_angles t
      | None => bladeAngles st
      end.
Proof.
  unfold last_tick_speed.
  induction evs as [| [r1 r2 | v] evs IH]; intro st.
  - reflexivity.
  - cbn [run fold_left step tick_speeds]. fold (run evs (tick r1 r2 st)).
    rewrite IH, last_tick_speed_cons.
    now destruct (last (map Some (tick_speeds evs)) None).
  - cbn [run fold_left step tick_speeds]. fold (run evs (onChange v st)).
    now rewrite IH.
Qed.

Lemma gen_angles_formula (s : number) :
  gen_angles s = [of_Z 2 * s; of_Z 2 * s + of_Z 5; of_Z 2 * s - of_Z 5].
Proof. unfold gen_angles. now rewrite (Qcmult_comm s (of_Z 2)). Qed.

(** Every angle derived from a speed of at most 15 is at most 35. *)
Lemma gen_angles_le_35 (s : number) :
  s <= of_Z 15 -> Forall (fun a => a <= of_Z 35) (gen_angles s).
Proof.
  intro H. unfold gen_angles.
  repeat constructor; to_Q; lra.
Qed.

Lemma angles_le_35 (st : State) :
  reachable st -> Forall (fun a => a <= of_Z 35) (bladeAngles st).
Proof.
  induction 1 as [| st [r1 r2 | v] R IH Ok].
  - repeat constructor; to_Q; lra.
  - cbn [step tick bladeAngles]. cbn [event_ok] in Ok.
    apply andb_true_iff in Ok as [Ok1 _].
    apply gen_angles_le_35. now apply gen_speed_range.
  - exact IH.
Qed.

Lemma three_angles (st : State) :
  reachable st -> length (bladeAngles st) = 3%nat.
Proof. induction 1 as [| st [r1 r2 | v] R IH Ok]; auto. Qed.

Lemma bladeWarning_false (st : State) :
  Forall (fun a => a <= of_Z 35) (bladeAngles st) -> bladeWarning st = false.
Proof.
  intro F. unfold bladeWarning, some.
  destruct (existsb _ _) eqn:E; [|reflexivity].
  apply existsb_exists in E as (a & In_a & G).
  rewrite Forall_forall in F. specialize (F a In_a).
  apply gt_true in G. exfalso. to_Q. lra.
Qed.

Lemma energy_step (st : State) (e : event) :
  event_ok e = true -> totalEnergy st <= totalEnergy (step st e).
Proof.
  destruct e as [r1 r2 | v]; intro Ok; cbn [step].
  - cbn [event_ok] in Ok. apply andb_true_iff in Ok as [Ok1 _].
    destruct (gen_speed_range r1 Ok1) as [S0 _].
    cbn [tick totalEnergy]. to_Q. lra.
  - apply Qcle_refl.
Qed.

Lemma energy_run (evs : list event) :
  forall st, forallb event_ok evs = true ->
             totalEnergy st <= totalEnergy (run evs st).
Proof.
  induction evs as [| e evs IH]; intros st Ok.
  - apply Qcle_refl.
  - cbn [forallb] in Ok. apply andb_true_iff in Ok as [Oe Oevs].
    cbn [run fold_left]. fold (run evs (step st e)).
    eapply Qcle_trans; [apply energy_step; exact Oe | now apply IH].
Qed.

(** ** History buffers *)

(** C1.  In every reachable state the power series, the wind-speed series and
    the label series have the same length, and that length is at most 20. *)
Theorem buffers_equal_length_capped (st : State) :
  reachable st ->
  length (powerData st) = length (windHistory st)
  /\ length (windHistory st) = length (labels st)
  /\ (length (labels st) <= 20)%nat.
Proof.
  induction 1 as [| st [r1 r2 | v] R (Hpw & Hwl & Hcap) Ok].
  - cbn. lia.
  - cbn [step tick powerData windHistory labels].
    rewrite !length_push20. lia.
  - cbn [step onChange powerData windHistory labels]. lia.
Qed.

Lemma buffers_equal_length_capped_witness :
  length (powerData (run sample_trace init))
  = length (windHistory (run sample_trace init))
  /\ length (windHistory (run sample_trace init))
     = length (labels (run sample_trace init))
  /\ (length (labels (run sample_trace init)) <= 20)%nat.
Proof.
  apply (buffers_equal_length_capped (run sample_trace init)).
  apply reachable_run. vm_compute. reflexivity.
Defined.

(** C2.  Once more than 20 ticks have occurred, each history buffer holds
    exactly the entries of the 20 most recent ticks, oldest first: the speeds
    in the wind series, their powers in the power series and an empty label
    each in the label series; the older entries have been evicted. *)
Theorem histories_hold_last_20_ticks (evs : list event) :
  (20 < length (tick_speeds evs))%nat ->
  exists older recent : list number,
    tick_speeds evs = older ++ recent
    /\ older <> []
    /\ length recent = 20%nat
    /\ windHistory (run evs init) = recent
    /\ powerData (run evs init) = map gen_power recent
    /\ labels (run evs init) = map (fun _ => String.EmptyString) recent.
Proof.
  intro More.
  destruct (run_histories evs init [] eq_refl eq_refl eq_refl)
    as (Hw & Hp & Hl).
  cbn [app] in Hw, Hp, Hl.
  rewrite slice_neg_map in Hp. rewrite slice_neg_map in Hl.
  destruct (slice_neg_split 20 (tick_speeds evs)) as [Split Len]; [lia|].
  exists (firstn (length (tick_speeds evs) - 20) (tick_speeds evs)),
         (slice_neg 20 (tick_speeds evs)).
  repeat split; try assumption.
  intro E. apply (f_equal (@length number)) in E.
  rewrite length_firstn in E. cbn [length] in E. lia.
Qed.

Lemma histories_hold_last_20_ticks_witness :
  exists older recent : list number,
    tick_speeds sample_trace = older ++ recent
    /\ older <> []
    /\ length recent = 20%nat
    /\ windHistory (run sample_trace init) = recent
    /\ powerData (run sample_trace init) = map gen_power recent
    /\ labels (run sample_trace init)
       = map (fun _ => String.EmptyString) recent.
Proof.
  apply (histories_hold_last_20_ticks sample_trace).
  vm_compute. lia.
Defined.

(** ** Blade angles *)

(** C3, the claim as stated fails: after one tick that generates 7.5 m/s and
    the slider moved to 22, the state is reachable, the wind speed is 22 and
    the blade angles are still [15, 20, 10], not [44, 49, 39]. *)
Lemma blade_angles_stale_after_override :
  reachable (run trace_tick_then_22 init)
  /\ windSpeed (run trace_tick_then_22 init) = of_Z 22
  /\ bladeAngles (run trace_tick_then_22 init)
     <> [of_Z 2 * windSpeed (run trace_tick_then_22 init);
         of_Z 2 * windSpeed (run trace_tick_then_22 init) + of_Z 5;
         of_Z 2 * windSpeed (run trace_tick_then_22 init) - of_Z 5].
Proof.
  split; [apply reachable_run; vm_compute; reflexivity|].
  split; [reflexivity|].
  intro H. apply (f_equal (map this)) in H. vm_compute in H. discriminate H.
Qed.

(** C3, amended.  Right after a timer tick, with [s] the current wind speed,
    the blade angles are exactly [2s, 2s+5, 2s-5].  A manual override leaves
    the blade angles as they are.  So after any trace the blade angles are
    [2t, 2t+5, 2t-5] for the speed [t] generated by the latest tick, and the
    initial [0, 0, 0] when no tick has occurred yet. *)
Theorem blade_angles_follow_last_tick :
  (forall r1 r2 st,
     bladeAngles (tick r1 r2 st)
     = [of_Z 2 * windSpeed (tick r1 r2 st);
        of_Z 2 * windSpeed (tick r1 r2 st) + of_Z 5;
        of_Z 2 * windSpeed (tick r1 r2 st) - of_Z 5])
  /\ (forall v st, bladeAngles (onChange v st) = bladeAngles st)
  /\ (forall evs,
        bladeAngles (run evs init)
        = match last_tick_speed evs with
          | Some t => [of_Z 2 * t; of_Z 2 * t + of_Z 5; of_Z 2 * t - of_Z 5]
          | None => [0; 0; 0]
          end).
Proof.
  split; [|split].
  - intros r1 r2 st. cbn [tick bladeAngles windSpeed].
    apply gen_angles_formula.
  - reflexivity.
  - intro evs. rewrite run_angles.
    destruct (last_tick_speed evs); [apply gen_angles_formula | reflexivity].
Qed.

(** C7.  With the three current blade angles [a1], [a2], [a3], the
    blade-deviation warning is shown exactly when at least one of them is
    strictly greater than 90. *)
Theorem blade_warning_iff_some_angle_above_90
    (st : State) (a1 a2 a3 : number) :
  bladeAngles st = [a1; a2; a3] ->
  (bladeWarningShown (render st) = true
   <-> of_Z 90 < a1 \/ of_Z 90 < a2 \/ of_Z 90 < a3).
Proof.
  intro E. cbn [render bladeWarningShown]. unfold bladeWarning, some.
  rewrite E. cbn [existsb].
  rewrite !orb_true_iff, !gt_true. intuition discriminate.
Qed.

Lemma blade_warning_iff_some_angle_above_90_witness :
  bladeWarningShown (render state_at_50) = true
  <-> of_Z 90 < of_Z 50 * of_Z 2
      \/ of_Z 90 < of_Z 50 * of_Z 2 + of_Z 5
      \/ of_Z 90 < of_Z 50 * of_Z 2 - of_Z 5.
Proof.
  apply (blade_warning_iff_some_angle_above_90 state_at_50). reflexivity.
Defined.

(** C9.  In every state reachable through timer ticks and manual overrides,
    every blade angle is at most 35 degrees, so the blade-deviation warning
    is not shown. *)
Theorem blade_warning_never_shown (st : State) :
  reachable st ->
  Forall (fun a => a <= of_Z 35) (bladeAngles st)
  /\ bladeWarningShown (render st) = false.
Proof.
  intro R. pose proof (angles_le_35 st R) as F.
  split; [exact F|]. cbn [render bladeWarningShown].
  now apply bladeWarning_false.
Qed.

Lemma blade_warning_never_shown_witness :
  Forall (fun a => a <= of_Z 35) (bladeAngles (run sample_trace init))
  /\ bladeWarningShown (render (run sample_trace init)) = false.
Proof.
  apply (blade_warning_never_shown (run sample_trace init)).
  apply reachable_run. vm_compute. reflexivity.
Defined.

(** ** Overload warning and the manual override *)

(** C4.  The overload warning is shown exactly when the current wind speed is
    strictly above 20: not at 20 itself, and at once after the slider handler
    has stored a value above 20, such as 22, with no tick in between. *)
Theorem overload_iff_speed_above_20 :
  (forall st, overloadShown (render st) = true <-> of_Z 20 < windSpeed st)
  /\ (forall v st,
        overloadShown (render (onChange v st)) = true <-> of_Z 20 < v)
  /\ (forall st, overloadShown (render (onChange (of_Z 20) st)) = false)
  /\ slider_ok (of_Z 22) = true
  /\ (forall st, overloadShown (render (onChange (of_Z 22) st)) = true).
Proof.
  repeat split; try (intros; reflexivity).
  - cbn [render overloadShown]. apply gt_true.
  - cbn [render overloadShown]. apply gt_true.
  - cbn [render overloadShown onChange windSpeed]. apply gt_true.
  - cbn [render overloadShown onChange windSpeed]. apply gt_true.
Qed.

(** C5, the claim as stated fails: after one tick that generates 7.5 m/s and
    the slider moved to 25, the state is reachable, the wind speed is 25 and
    the blade angles are [15, 20, 10], not [50, 55, 45]. *)
Lemma slider_max_angles_not_recomputed :
  reachable (run trace_tick_then_25 init)
  /\ windSpeed (run trace_tick_then_25 init) = of_Z 25
  /\ bladeAngles (run trace_tick_then_25 init)
     <> [of_Z 50; of_Z 55; of_Z 45].
Proof.
  split; [apply reachable_run; vm_compute; reflexivity|].
  split; [reflexivity|].
  intro H. apply (f_equal (map this)) in H. vm_compute in H. discriminate H.
Qed.

(** C5, amended.  After the slider is set to 25, its maximum, in a reachable
    state, the wind speed is 25, the overload warning is shown and the
    blade-deviation warning is not.  The blade angles are the ones the state
    had before, so they are not [50, 55, 45]. *)
Theorem slider_max_only_overload (st : State) :
  reachable st ->
  slider_ok (of_Z 25) = true
  /\ windSpeed (onChange (of_Z 25) st) = of_Z 25
  /\ overloadShown (render (onChange (of_Z 25) st)) = true
  /\ bladeWarningShown (render (onChange (of_Z 25) st)) = false
  /\ bladeAngles (onChange (of_Z 25) st) = bladeAngles st
  /\ bladeAngles (onChange (of_Z 25) st) <> [of_Z 50; of_Z 55; of_Z 45].
Proof.
  intro R. pose proof (angles_le_35 st R) as F.
  repeat split.
  - cbn [render bladeWarningShown]. now apply bladeWarning_false.
  - cbn [onChange bladeAngles]. intro E. rewrite E in F.
    apply Forall_inv in F. revert F. apply Qclt_not_le. reflexivity.
Qed.

Lemma slider_max_only_overload_witness :
  slider_ok (of_Z 25) = true
  /\ windSpeed (onChange (of_Z 25) (run sample_trace init)) = of_Z 25
  /\ overloadShown (render (onChange (of_Z 25) (run sample_trace init)))
     = true
  /\ bladeWarningShown (render (onChange (of_Z 25) (run sample_trace init)))
     = false
  /\ bladeAngles (onChange (of_Z 25) (run sample_trace init))
     = bladeAngles (run sample_trace init)
  /\ bladeAngles (onChange (of_Z 25) (run sample_trace init))
     <> [of_Z 50; of_Z 55; of_Z 45].
Proof.
  apply (slider_max_only_overload (run sample_trace init)).
  apply reachable_run. vm_compute. reflexivity.
Defined.

(** C10.  The manual override stores the new wind speed and nothing else:
    blade angles, wind direction, the three history buffers and the energy
    total are the ones of the state before. *)
Theorem override_changes_only_wind_speed (v : number) (st : State) :
  windSpeed (onChange v st) = v
  /\ bladeAngles (onChange v st) = bladeAngles st
  /\ windDirection (onChange v st) = windDirection st
  /\ powerData (onChange v st) = powerData st
  /\ windHistory (onChange v st) = windHistory st
  /\ labels (onChange v st) = labels st
  /\ totalEnergy (onChange v st) = totalEnergy st.
Proof. repeat split. Qed.

(** ** The tick *)

(** C6.  A timer tick that generates the speed [s] adds exactly
    [(s * 1.5) / 60] to the energy total; [s] is not negative, so the total
    does not decrease at the tick, nor along any events handled after it. *)
Theorem energy_increment_and_monotone
    (r1 r2 : number) (st : State) (evs : list event) :
  random_ok r1 = true ->
  forallb event_ok evs = true ->
  totalEnergy (tick r1 r2 st)
  = totalEnergy st + (windSpeed (tick r1 r2 st) * lit 1.5) / of_Z 60
  /\ 0 <= windSpeed (tick r1 r2 st)
  /\ totalEnergy st <= totalEnergy (tick r1 r2 st)
  /\ totalEnergy (tick r1 r2 st) <= totalEnergy (run evs (tick r1 r2 st)).
Proof.
  intros R Ok. destruct (gen_speed_range r1 R) as [S0 _].
  split; [reflexivity|]. split; [exact S0|]. split.
  - cbn [tick totalEnergy]. to_Q. lra.
  - now apply energy_run.
Qed.

Lemma energy_increment_and_monotone_witness :
  totalEnergy (tick (lit 0.5) (lit 0.25) init)
  = totalEnergy init
    + (windSpeed (tick (lit 0.5) (lit 0.25) init) * lit 1.5) / of_Z 60
  /\ 0 <= windSpeed (tick (lit 0.5) (lit 0.25) init)
  /\ totalEnergy init <= totalEnergy (tick (lit 0.5) (lit 0.25) init)
  /\ totalEnergy (tick (lit 0.5) (lit 0.25) init)
     <= totalEnergy (run sample_trace (tick (lit 0.5) (lit 0.25) init)).
Proof.
  apply (energy_increment_and_monotone (lit 0.5) (lit 0.25) init sample_trace).
  - vm_compute. reflexivity.
  - vm_compute. reflexivity.
Defined.

(** C8.  Whatever the two random draws in [[0, 1)], the tick stores a wind
    speed that is a whole number of tenths (one decimal place) between 0 and
    15, and a wind direction that is an integer from 0 to 359. *)
Theorem tick_reading_ranges (r1 r2 : number) (st : State) :
  random_ok r1 = true ->
  random_ok r2 = true ->
  (exists n : Z, (0 <= n <= 150)%Z
                 /\ windSpeed (tick r1 r2 st) = of_Z n / of_Z 10)
  /\ 0 <= windSpeed (tick r1 r2 st)
  /\ windSpeed (tick r1 r2 st) <= of_Z 15
  /\ (exists z : Z, (0 <= z < 360)%Z
                    /\ windDirection (tick r1 r2 st) = of_Z z).
Proof.
  intros R1 R2. cbn [tick windSpeed windDirection].
  destruct (gen_speed_range r1 R1) as [S0 S15].
  repeat split; try assumption.
  - now apply gen_speed_tenths.
  - now apply gen_direction_degrees.
Qed.

Lemma tick_reading_ranges_witness :
  (exists n : Z, (0 <= n <= 150)%Z
                 /\ windSpeed (tick (lit 0.5) (lit 0.25) init)
                    = of_Z n / of_Z 10)
  /\ 0 <= windSpeed (tick (lit 0.5) (lit 0.25) init)
  /\ windSpeed (tick (lit 0.5) (lit 0.25) init) <= of_Z 15
  /\ (exists z : Z, (0 <= z < 360)%Z
                    /\ windDirection (tick (lit 0.5) (lit 0.25) init)
                       = of_Z z).
Proof.
  apply (tick_reading_ranges (lit 0.5) (lit 0.25) init).
  - vm_compute. reflexivity.
  - vm_compute. reflexivity.
Defined.

(** ** Scenarios *)

(** Lists of numbers are equal when their underlying fractions are. *)
Lemma map_this_inj (l1 l2 : list number) :
  map this l1 = map this l2 -> l1 = l2.
Proof.
  revert l2. induction l1 as [| a l1 IH]; intros [| b l2] E;
    try discriminate E; [reflexivity|].
  cbn [map] in E. injection E as Eab El.
  f_equal; [now apply Qc_decomp | now apply IH].
Qed.

(** Decides an equation between closed numbers, or lists of them. *)
Ltac Qc_decide :=
  first [ apply Qc_is_canon; reflexivity
        | apply map_this_inj; vm_compute; reflexivity ].

(** 10 m/s gives the angles [20, 25, 15] and 15.0 kW. *)
Example angles_at_10 : gen_angles (of_Z 10) = [of_Z 20; of_Z 25; of_Z 15].
Proof. Qc_decide. Qed.

Example power_at_10 : gen_power (of_Z 10) = of_Z 15.
Proof. Qc_decide. Qed.

(** The draw 0.5 generates 7.5 m/s; a draw just below 1 generates 15.0. *)
Example speed_of_half : gen_speed (lit 0.5) = lit 7.5.
Proof. Qc_decide. Qed.

Example speed_of_top : gen_speed (lit 0.99999) = of_Z 15.
Proof. Qc_decide. Qed.

Example direction_of_top : gen_direction (lit 0.99999) = of_Z 359.
Proof. Qc_decide. Qed.

(** A tie rounds to the larger tenth; a negative value keeps its sign. *)
Example toFixed_tie : toFixed (lit 0.25) 1 = lit 0.3.
Proof. Qc_decide. Qed.

Example toFixed_negative : toFixed (- lit 0.25) 1 = - lit 0.3.
Proof. Qc_decide. Qed.

(** The angles derived from 50 m/s raise the blade-deviation warning. *)
Example warning_at_50 : bladeWarningShown (render state_at_50) = true.
Proof. reflexivity. Qed.

(** After the sample trace the wind series holds ticks 1 to 20; tick 0,
    which generated 0 m/s, has been evicted. *)
Example sample_trace_wind_series :
  windHistory (run sample_trace init)
  = map (fun k => match sample_tick k with
                  | Tick r1 _ => gen_speed r1
                  | Override v => v
                  end) (seq 1 20).
Proof. Qc_decide. Qed.

(** The slider takes whole tenths from 0 to 25 only. *)
Example slider_values :
  slider_ok (lit 24.3) = true
  /\ slider_ok (lit 24.35) = false
  /\ slider_ok (lit 25.1) = false.
Proof. repeat split. Qed.

(** * Further properties of the component *)

(** ** Helper facts *)

Lemma nearest_int_close (a : number) :
  of_Z (nearest_int a) <= a + lit (1 # 2)
  /\ a - lit (1 # 2) < of_Z (nearest_int a).
Proof.
  unfold nearest_int.
  pose proof (Qfloor_le (this (a + lit (1 # 2)))) as L.
  pose proof (Qlt_floor (this (a + lit (1 # 2)))) as U.
  rewrite inject_Z_plus in U. change (inject_Z 1) with 1%Q in U.
  set (n := Qfloor (this (a + lit (1 # 2)))) in *. clearbody n.
  split; to_Q; lra.
Qed.

(** The three branches of [toFixed]. *)
Lemma toFixed_cases (x : number) (digits : nat) :
  toFixed x digits = x
  \/ (0 <= x
      /\ toFixed x digits
         = of_Z (nearest_int (x * of_Z (pow10 digits)))
           / of_Z (pow10 digits))
  \/ (x < 0
      /\ toFixed x digits
         = - (of_Z (nearest_int (- x * of_Z (pow10 digits)))
              / of_Z (pow10 digits))).
Proof.
  unfold toFixed. cbv zeta.
  destruct (ge (Qcabs x) (of_Z (10 ^ 21))); [now left | right].
  destruct (gt 0 x) eqn:G.
  - right. apply gt_true in G. split; [exact G|].
    rewrite (Qcabs_neg x) by now apply Qclt_le_weak. reflexivity.
  - left. apply gt_false in G. split; [exact G|].
    now rewrite (Qcabs_pos x G).
Qed.

Lemma dist_le (a b e : number) :
  b - e <= a -> a <= b + e -> dist a b <= e.
Proof.
  intros L U. unfold dist. apply Qcabs_Qcle_condition.
  split; to_Q; lra.
Qed.


Lemma Math_max_spec (a b : number) :
  (a <= b /\ Math_max a b = b) \/ (b <= a /\ Math_max a b = a).
Proof.
  unfold Math_max. destruct (gt b a) eqn:G.
  - left. apply gt_true in G. split; [now apply Qclt_le_weak | reflexivity].
  - right. apply gt_false in G. split; [exact G | reflexivity].
Qed.

(** A slider value is a whole number of tenths from 0 to 250. *)
Lemma slider_ok_tenths (v : number) :
  slider_ok v = true ->
  exists n : Z, (0 <= n <= 250)%Z /\ v = of_Z n / of_Z 10.
Proof.
  unfold slider_ok. rewrite !andb_true_iff, !ge_true.
  intros [[V0 V25] E]. apply Qc_eq_bool_correct in E.
  unfold Math_floor in E.
  exists (Qfloor (v * of_Z 10)%Qc). split.
  - split; apply of_Z_le_inv; rewrite E; to_Q; lra.
  - rewrite E. unfold Qcdiv. rewrite <- Qcmult_assoc.
    rewrite Qcmult_inv_r; [now rewrite Qcmult_1_r | discriminate].
Qed.

Lemma windSpeed_tenths (st : State) :
  reachable st ->
  exists n : Z, (0 <= n <= 250)%Z /\ windSpeed st = of_Z n / of_Z 10.
Proof.
  induction 1 as [| st [r1 r2 | v] R IH Ok].
  - exists 0%Z. split; [lia | now apply Qc_is_canon].
  - cbn [event_ok] in Ok. apply andb_true_iff in Ok as [Ok1 _].
    destruct (gen_speed_tenths r1 Ok1) as (n & B & E).
    exists n. split; [lia | exact E].
  - now apply slider_ok_tenths.
Qed.

Lemma windSpeed_range (st : State) :
  reachable st -> 0 <= windSpeed st /\ windSpeed st <= of_Z 25.
Proof.
  intro R. destruct (windSpeed_tenths st R) as (n & [L U] & ->).
  apply of_Z_le in L. apply of_Z_le in U.
  split; to_Q; lra.
Qed.

(** ** The rotation period of [TurbineBlades] *)

(** X1.  The rotation period is never below 0.3, and a higher wind speed
    never gives a longer period. *)
Theorem rotation_floor_and_antitone (w1 w2 : number) :
  w1 <= w2 ->
  lit 0.3 <= rotationDuration w2
  /\ rotationDuration w2 <= rotationDuration w1.
Proof.
  intro H. unfold rotationDuration.
  destruct (Math_max_spec (lit 0.3) (of_Z 6 - w1 / of_Z 3)) as [[A1 ->] | [A1 ->]];
  destruct (Math_max_spec (lit 0.3) (of_Z 6 - w2 / of_Z 3)) as [[A2 ->] | [A2 ->]];
  split; to_Q; lra.
Qed.

Lemma rotation_floor_and_antitone_witness :
  lit 0.3 <= rotationDuration (of_Z 22)
  /\ rotationDuration (of_Z 22) <= rotationDuration (lit 7.5).
Proof.
  apply (rotation_floor_and_antitone (lit 7.5) (of_Z 22)).
  vm_compute. discriminate.
Defined.



(** X3.  In every reachable state the rotation period handed to the
    animation lies between 0.3 and 6; right after a tick it lies between 1
    and 6 and is the unclamped [6 - windSpeed / 3]. *)
Theorem rotation_in_reachable_states (st : State) (r1 r2 : number) :
  reachable st ->
  random_ok r1 = true ->
  lit 0.3 <= bladesDuration (render st)
  /\ bladesDuration (render st) <= of_Z 6
  /\ bladesDuration (render (tick r1 r2 st))
     = of_Z 6 - windSpeed (tick r1 r2 st) / of_Z 3
  /\ of_Z 1 <= bladesDuration (render (tick r1 r2 st))
  /\ bladesDuration (render (tick r1 r2 st)) <= of_Z 6.
Proof.
  intros R Ok. destruct (windSpeed_range st R) as [W0 _].
  destruct (gen_speed_range r1 Ok) as [S0 S15].
  cbn [render bladesDuration tick windSpeed]. unfold rotationDuration.
  destruct (Math_max_spec (lit 0.3) (of_Z 6 - windSpeed st / of_Z 3))
    as [[A1 ->] | [A1 ->]];
  destruct (Math_max_spec (lit 0.3) (of_Z 6 - gen_speed r1 / of_Z 3))
    as [[A2 ->] | [A2 ->]];
  repeat split; try (to_Q; lra); apply Qcle_antisym; to_Q; lra.
Qed.

Lemma rotation_in_reachable_states_witness :
  lit 0.3 <= bladesDuration (render (run sample_trace init))
  /\ bladesDuration (render (run sample_trace init)) <= of_Z 6
  /\ bladesDuration (render (tick (lit 0.5) (lit 0.25) (run sample_trace init)))
     = of_Z 6
       - windSpeed (tick (lit 0.5) (lit 0.25) (run sample_trace init))
         / of_Z 3
  /\ of_Z 1
     <= bladesDuration
          (render (tick (lit 0.5) (lit 0.25) (run sample_trace init)))
  /\ bladesDuration
       (render (tick (lit 0.5) (lit 0.25) (run sample_trace init)))
     <= of_Z 6.
Proof.
  apply (rotation_in_reachable_states (run sample_trace init)
           (lit 0.5) (lit 0.25)).
  - apply reachable_run. vm_compute. reflexivity.
  - vm_compute. reflexivity.
Defined.

(** ** Invariants of the current reading *)

(** X4.  In every reachable state the wind speed is a whole number of
    tenths between 0 and 25: a tick stores one between 0 and 15, the slider
    one between 0 and 25. *)
Theorem wind_speed_invariant (st : State) :
  reachable st ->
  (exists n : Z, (0 <= n <= 250)%Z /\ windSpeed st = of_Z n / of_Z 10)
  /\ 0 <= windSpeed st
  /\ windSpeed st <= of_Z 25.
Proof.
  intro R. split; [now apply windSpeed_tenths | now apply windSpeed_range].
Qed.

Lemma wind_speed_invariant_witness :
  (exists n : Z, (0 <= n <= 250)%Z
                 /\ windSpeed (run trace_tick_then_22 init)
                    = of_Z n / of_Z 10)
  /\ 0 <= windSpeed (run trace_tick_then_22 init)
  /\ windSpeed (run trace_tick_then_22 init) <= of_Z 25.
Proof.
  apply (wind_speed_invariant (run trace_tick_then_22 init)).
  apply reachable_run. vm_compute. reflexivity.
Defined.

(** X5.  In every reachable state the wind direction is an integer from 0
    to 359: only ticks write it, and the initial value is 0. *)
Theorem wind_direction_invariant (st : State) :
  reachable st ->
  exists z : Z, (0 <= z < 360)%Z /\ windDirection st = of_Z z.
Proof.
  induction 1 as [| st [r1 r2 | v] R IH Ok].
  - exists 0%Z. split; [lia | reflexivity].
  - cbn [event_ok] in Ok. apply andb_true_iff in Ok as [_ Ok2].
    cbn [step tick windDirection]. now apply gen_direction_degrees.
  - exact IH.
Qed.

Lemma wind_direction_invariant_witness :
  exists z : Z, (0 <= z < 360)%Z
                /\ windDirection (run sample_trace init) = of_Z z.
Proof.
  apply (wind_direction_invariant (run sample_trace init)).
  apply reachable_run. vm_compute. reflexivity.
Defined.

(** X6.  Right after a timer tick the overload warning is not shown,
    whatever the state before: a tick speed is at most 15.  The warning can
    only come from the slider. *)
Theorem tick_clears_overload (r1 r2 : number) (st : State) :
  random_ok r1 = true ->
  overloadShown (render (tick r1 r2 st)) = false.
Proof.
  intro Ok. destruct (gen_speed_range r1 Ok) as [_ S15].
  cbn [render overloadShown tick windSpeed]. apply gt_false.
  to_Q. lra.
Qed.

Lemma tick_clears_overload_witness :
  overloadShown
    (render (tick (lit 0.5) (lit 0.25) (run trace_tick_then_22 init)))
  = false.
Proof.
  apply (tick_clears_overload (lit 0.5) (lit 0.25)
           (run trace_tick_then_22 init)).
  vm_compute. reflexivity.
Defined.

(** ** Overrides leave no trace *)

Lemma tick_agree (r1 r2 : number) (a b : State) :
  agree_but_windSpeed a b -> tick r1 r2 a = tick r1 r2 b.
Proof.
  intros (_ & Hp & Hw & Hl & He & _). unfold tick.
  now rewrite Hp, Hw, Hl, He.
Qed.

Lemma run_agree (evs : list event) :
  forall a b,
    agree_but_windSpeed a b ->
    agree_but_windSpeed (run evs a) (run (ticks_only evs) b).
Proof.
  induction evs as [| [r1 r2 | v] evs IH]; intros a b H.
  - exact H.
  - cbn [ticks_only filter is_tick run fold_left step].
    fold (run evs (tick r1 r2 a)).
    fold (run (filter is_tick evs) (tick r1 r2 b)).
    rewrite (tick_agree r1 r2 a b H).
    apply IH. repeat split.
  - cbn [ticks_only filter is_tick run fold_left step].
    fold (run evs (onChange v a)). apply IH.
    exact H.
Qed.

(** X7.  The slider never influences anything but the wind-speed cell:
    after any trace the blade angles, the three histories, the energy total
    and the wind direction are those of the same trace with its overrides
    removed, and once a tick follows the two states are equal. *)
Theorem overrides_leave_no_trace (evs : list event) (st : State) :
  agree_but_windSpeed (run evs st) (run (ticks_only evs) st)
  /\ (forall r1 r2,
        run (evs ++ [Tick r1 r2]) st
        = run (ticks_only evs ++ [Tick r1 r2]) st).
Proof.
  assert (A : agree_but_windSpeed (run evs st) (run (ticks_only evs) st)).
  { apply run_agree. repeat split. }
  split; [exact A|].
  intros r1 r2. rewrite !run_app. cbn [run fold_left step].
  now apply tick_agree.
Qed.

(** ** The energy total *)

Lemma run_energy (evs : list event) :
  forall st,
    totalEnergy (run evs st) = totalEnergy st + energy_of (tick_speeds evs).
Proof.
  induction evs as [| [r1 r2 | v] evs IH]; intro st.
  - cbn [run fold_left tick_speeds energy_of fold_right].
    now rewrite Qcplus_0_r.
  - cbn [run fold_left step tick_speeds]. fold (run evs (tick r1 r2 st)).
    rewrite IH. cbn [tick totalEnergy energy_of fold_right].
    now rewrite Qcplus_assoc.
  - cbn [run fold_left step tick_speeds]. fold (run evs (onChange v st)).
    now rewrite IH.
Qed.

Lemma tick_speeds_range (evs : list event) :
  forallb event_ok evs = true ->
  Forall (fun s => 0 <= s /\ s <= of_Z 15) (tick_speeds evs).
Proof.
  induction evs as [| [r1 r2 | v] evs IH]; intro Ok; cbn [tick_speeds].
  - constructor.
  - cbn [forallb event_ok] in Ok.
    apply andb_true_iff in Ok as [Oe Oevs].
    apply andb_true_iff in Oe as [O1 _].
    constructor; [now apply gen_speed_range | now apply IH].
  - cbn [forallb] in Ok. apply andb_true_iff in Ok as [_ Oevs].
    now apply IH.
Qed.

Lemma of_Z_succ (n : nat) :
  of_Z (Z.of_nat (S n)) = of_Z (Z.of_nat n) + of_Z 1.
Proof.
  apply Qc_is_canon. rewrite Nat2Z.inj_succ. unfold Z.succ.
  unfold of_Z, Qcplus, Q2Qc. cbn [this].
  rewrite !Qred_correct. now rewrite inject_Z_plus.
Qed.

Lemma energy_of_bounds (l : list number) :
  Forall (fun s => 0 <= s /\ s <= of_Z 15) l ->
  0 <= energy_of l
  /\ energy_of l <= lit 0.375 * of_Z (Z.of_nat (length l)).
Proof.
  induction 1 as [| s l [S0 S15] F [E0 E1]].
  - cbn. split; to_Q; lra.
  - cbn [energy_of fold_right length]. fold (energy_of l).
    rewrite of_Z_succ.
    set (k := of_Z (Z.of_nat (length l))) in *. clearbody k.
    split; to_Q; lra.
Qed.


(** X9.  After a trace with [n] ticks from the initial state, the energy
    total lies between 0 and [0.375 * n]: no tick adds more than
    [15 * 1.5 / 60]. *)
Theorem energy_bounded_by_ticks (evs : list event) :
  forallb event_ok evs = true ->
  0 <= totalEnergy (run evs init)
  /\ totalEnergy (run evs init)
     <= lit 0.375 * of_Z (Z.of_nat (length (tick_speeds evs))).
Proof.
  intro Ok. rewrite run_energy.
  destruct (energy_of_bounds _ (tick_speeds_range evs Ok)) as [E0 E1].
  cbn [init totalEnergy]. rewrite Qcplus_0_l. now split.
Qed.

Lemma energy_bounded_by_ticks_witness :
  0 <= totalEnergy (run sample_trace init)
  /\ totalEnergy (run sample_trace init)
     <= lit 0.375 * of_Z (Z.of_nat (length (tick_speeds sample_trace))).
Proof.
  apply (energy_bounded_by_ticks sample_trace).
  vm_compute. reflexivity.
Defined.

(** ** More on the history buffers *)

(** The updater keeps the last 19 entries and puts the new one last. *)
Lemma push20_snoc {A : Type} (prev : list A) (x : A) :
  push20 prev x = slice_neg 19 prev ++ [x].
Proof.
  unfold push20. cbv zeta.
  assert (E : length (prev ++ [x]) = S (length prev)).
  { rewrite length_app. cbn [length]. lia. }
  destruct (Nat.ltb_spec 20 (length (prev ++ [x]))) as [H | H];
    rewrite E in H.
  - unfold slice_neg. rewrite E, skipn_app.
    replace (S (length prev) - 20)%nat with (length prev - 19)%nat by lia.
    replace (length prev - 19 - length prev)%nat with 0%nat by lia.
    reflexivity.
  - rewrite slice_neg_short by lia. reflexivity.
Qed.

Lemma Forall_slice_neg {A : Type} (P : A -> Prop) (n : nat) (l : list A) :
  Forall P l -> Forall P (slice_neg n l).
Proof.
  intro F. unfold slice_neg.
  rewrite <- (firstn_skipn (length l - n) l) in F.
  now apply Forall_app in F.
Qed.

Lemma gen_power_range (s : number) :
  0 <= s -> s <= of_Z 15 ->
  0 <= gen_power s /\ gen_power s <= lit 22.5.
Proof.
  intros S0 S15. unfold gen_power.
  assert (X0 : 0 <= s * lit 1.5) by (to_Q; lra).
  assert (X1 : s * lit 1.5 < of_Z (10 ^ 21)).
  { change (10 ^ 21)%Z with 1000000000000000000000%Z. to_Q. lra. }
  rewrite (toFixed_nonneg _ 1 X0 X1). change (pow10 1) with 10%Z.
  destruct (nearest_int_bounds (s * lit 1.5 * of_Z 10) 0 225) as [L U];
    try (to_Q; lra).
  apply of_Z_le in L. apply of_Z_le in U.
  set (n := nearest_int (s * lit 1.5 * of_Z 10)) in *. clearbody n.
  split; to_Q; lra.
Qed.

(** X10.  In every reachable state every charted wind speed lies between 0
    and 15, every charted power between 0 and 22.5, and every label is the
    empty string: slider values never enter the histories. *)
Theorem history_entries_in_range (st : State) :
  reachable st ->
  Forall (fun s => 0 <= s /\ s <= of_Z 15) (windHistory st)
  /\ Forall (fun p => 0 <= p /\ p <= lit 22.5) (powerData st)
  /\ Forall (fun l => l = String.EmptyString) (labels st).
Proof.
  intro R. destruct (reachable_is_run st R) as (evs & Ok & ->).
  destruct (run_histories evs init [] eq_refl eq_refl eq_refl)
    as (-> & -> & ->).
  cbn [app]. pose proof (tick_speeds_range evs Ok) as F.
  repeat split; apply Forall_slice_neg.
  - exact F.
  - apply Forall_map. revert F. apply Forall_impl.
    intros s [S0 S15]. now apply gen_power_range.
  - apply Forall_map. apply Forall_forall. reflexivity.
Qed.

Lemma history_entries_in_range_witness :
  Forall (fun s => 0 <= s /\ s <= of_Z 15)
    (windHistory (run sample_trace init))
  /\ Forall (fun p => 0 <= p /\ p <= lit 22.5)
       (powerData (run sample_trace init))
  /\ Forall (fun l => l = String.EmptyString)
       (labels (run sample_trace init)).
Proof.
  apply (history_entries_in_range (run sample_trace init)).
  apply reachable_run. vm_compute. reflexivity.
Defined.

(** X11.  Up to 20 ticks nothing is evicted: the wind series is the list of
    all generated speeds, oldest first, the power series their powers and
    the label series one empty label per tick. *)
Theorem no_eviction_up_to_20_ticks (evs : list event) :
  (length (tick_speeds evs) <= 20)%nat ->
  windHistory (run evs init) = tick_speeds evs
  /\ powerData (run evs init) = map gen_power (tick_speeds evs)
  /\ labels (run evs init)
     = map (fun _ => String.EmptyString) (tick_speeds evs).
Proof.
  intro H.
  destruct (run_histories evs init [] eq_refl eq_refl eq_refl)
    as (-> & -> & ->).
  cbn [app].
  repeat split; apply slice_neg_short; now rewrite ?length_map.
Qed.

Lemma no_eviction_up_to_20_ticks_witness :
  windHistory (run trace_tick_then_22 init) = tick_speeds trace_tick_then_22
  /\ powerData (run trace_tick_then_22 init)
     = map gen_power (tick_speeds trace_tick_then_22)
  /\ labels (run trace_tick_then_22 init)
     = map (fun _ => String.EmptyString) (tick_speeds trace_tick_then_22).
Proof.
  apply (no_eviction_up_to_20_ticks trace_tick_then_22).
  vm_compute. lia.
Defined.

(** X12.  After any trace from the initial state each history buffer holds
    [min(20, n)] entries, where [n] is the number of ticks of the trace. *)
Theorem history_length_is_min_20_ticks (evs : list event) :
  length (windHistory (run evs init))
  = Nat.min 20 (length (tick_speeds evs))
  /\ length (powerData (run evs init))
     = Nat.min 20 (length (tick_speeds evs))
  /\ length (labels (run evs init))
     = Nat.min 20 (length (tick_speeds evs)).
Proof.
  destruct (run_histories evs init [] eq_refl eq_refl eq_refl)
    as (-> & -> & ->).
  cbn [app]. now rewrite !length_slice_neg, !length_map.
Qed.

(** X13.  Whatever the state, a tick keeps the last 19 entries of each
    history, in order, and puts its own entry last: the newest wind-series
    entry is the current wind speed and the newest power entry its rounded
    power. *)
Theorem tick_appends_after_last_19 (r1 r2 : number) (st : State) :
  windHistory (tick r1 r2 st)
  = slice_neg 19 (windHistory st) ++ [windSpeed (tick r1 r2 st)]
  /\ powerData (tick r1 r2 st)
     = slice_neg 19 (powerData st)
       ++ [gen_power (windSpeed (tick r1 r2 st))]
  /\ labels (tick r1 r2 st)
     = slice_neg 19 (labels st) ++ [String.EmptyString].
Proof.
  cbn [tick windHistory powerData labels windSpeed].
  now rewrite !push20_snoc.
Qed.

(** ** The weather card *)

Lemma floor_scaled (r : number) (k : Z) :
  random_ok r = true -> (0 < k)%Z ->
  exists z : Z, (0 <= z < k)%Z /\ Math_floor (r * of_Z k) = of_Z z.
Proof.
  intros R K. apply random_ok_spec in R. destruct R as [R0 R1].
  exists (Qfloor (r * of_Z k)%Qc). split; [|reflexivity].
  assert (Kq : (0 < inject_Z k)%Q).
  { change 0%Q with (inject_Z 0). now rewrite <- Zlt_Qlt. }
  assert (L : (inject_Z 0 <= this (r * of_Z k))%Q).
  { to_Q. change (inject_Z 0) with 0%Q. nra. }
  assert (U : (this (r * of_Z k) < inject_Z k)%Q) by (to_Q; nra).
  split.
  - apply Qfloor_resp_le in L. rewrite Qfloor_Z in L. exact L.
  - pose proof (Qfloor_le (this (r * of_Z k))) as F.
    rewrite Zlt_Qlt. lra.
Qed.

Lemma of_Z_plus (a b : Z) : of_Z a + of_Z b = of_Z (a + b).
Proof.
  apply Qc_is_canon. unfold of_Z, Qcplus, Q2Qc. cbn [this].
  rewrite !Qred_correct. now rewrite inject_Z_plus.
Qed.

(** X14.  For every random draw in [[0, 1)] the pressure shown is an
    integer from 1000 to 1019. *)
Theorem pressure_range (r : number) :
  random_ok r = true ->
  exists z : Z, (1000 <= z <= 1019)%Z /\ pressure r = of_Z z.
Proof.
  intro R. destruct (floor_scaled r 20 R) as (z & B & E); [lia|].
  exists (1000 + z)%Z. split; [lia|].
  unfold pressure. rewrite E. apply of_Z_plus.
Qed.

Lemma pressure_range_witness :
  exists z : Z, (1000 <= z <= 1019)%Z /\ pressure (lit 0.99999) = of_Z z.
Proof. apply (pressure_range (lit 0.99999)). vm_compute. reflexivity. Defined.

(** X15.  For every random draw in [[0, 1)] the humidity shown is an
    integer from 50 to 99; 100 is never shown. *)
Theorem humidity_range (r : number) :
  random_ok r = true ->
  exists z : Z, (50 <= z <= 99)%Z /\ humidity r = of_Z z.
Proof.
  intro R. destruct (floor_scaled r 50 R) as (z & B & E); [lia|].
  exists (50 + z)%Z. split; [lia|].
  unfold humidity. rewrite E. apply of_Z_plus.
Qed.

Lemma humidity_range_witness :
  exists z : Z, (50 <= z <= 99)%Z /\ humidity (lit 0.99999) = of_Z z.
Proof. apply (humidity_range (lit 0.99999)). vm_compute. reflexivity. Defined.

(** ** The blades card and the summary card *)

(** Below zero and above [-10^21], [toFixed] rounds the magnitude and puts
    the sign back. *)
Lemma toFixed_neg (x : number) (digits : nat) :
  x < 0 -> - of_Z (10 ^ 21) < x ->
  toFixed x digits
  = - (of_Z (nearest_int (- x * of_Z (pow10 digits)))
       / of_Z (pow10 digits)).
Proof.
  intros H0 H1. unfold toFixed.
  rewrite (Qcabs_neg x) by now apply Qclt_le_weak.
  assert (G : ge (- x) (of_Z (10 ^ 21)) = false).
  { apply ge_false. change (10 ^ 21)%Z with 1000000000000000000000%Z in *.
    to_Q. lra. }
  assert (S : gt 0 x = true) by now apply gt_true.
  cbv zeta. now rewrite G, S.
Qed.

(** Rounding to no decimals moves a number by at most 0.5. *)
Lemma toFixed_0_close (x : number) : dist (toFixed x 0) x <= lit 0.5.
Proof.
  destruct (toFixed_cases x 0) as [E | [[P E] | [N E]]]; rewrite E; clear E.
  - apply dist_le; to_Q; lra.
  - change (pow10 0) with 1%Z.
    destruct (nearest_int_close (x * of_Z 1)) as [L U].
    set (n := nearest_int (x * of_Z 1)) in *. clearbody n.
    apply dist_le; to_Q; lra.
  - change (pow10 0) with 1%Z.
    destruct (nearest_int_close (- x * of_Z 1)) as [L U].
    set (n := nearest_int (- x * of_Z 1)) in *. clearbody n.
    apply dist_le; to_Q; lra.
Qed.

Lemma of_Z_opp (n : Z) : - of_Z n = of_Z (- n).
Proof.
  apply Qc_is_canon. unfold of_Z, Qcopp, Q2Qc. cbn [this].
  rewrite !Qred_correct. now rewrite inject_Z_opp.
Qed.

Lemma of_Z_div_1 (n : Z) : of_Z n / of_Z 1 = of_Z n.
Proof. apply Qc_is_canon. to_Q. lra. Qed.

(** An angle between -5 and 35 is shown as an integer between -5 and 35. *)
Lemma bladeShown_integer (a : number) :
  of_Z (-5) <= a -> a <= of_Z 35 ->
  exists z : Z, (-5 <= z <= 35)%Z /\ bladeShown a = of_Z z.
Proof.
  intros L U. unfold bladeShown.
  destruct (Qclt_le_dec a 0) as [N | P].
  - assert (B : - of_Z (10 ^ 21) < a).
    { change (10 ^ 21)%Z with 1000000000000000000000%Z. to_Q. lra. }
    rewrite (toFixed_neg a 0 N B). change (pow10 0) with 1%Z.
    destruct (nearest_int_bounds (- a * of_Z 1) 0 5) as [Ln Un];
      try (to_Q; lra).
    exists (Z.opp (nearest_int (- a * of_Z 1))). split; [lia|].
    now rewrite of_Z_div_1, of_Z_opp.
  - assert (B : a < of_Z (10 ^ 21)).
    { change (10 ^ 21)%Z with 1000000000000000000000%Z. to_Q. lra. }
    rewrite (toFixed_nonneg a 0 P B). change (pow10 0) with 1%Z.
    destruct (nearest_int_bounds (a * of_Z 1) 0 35) as [Ln Un];
      try (to_Q; lra).
    exists (nearest_int (a * of_Z 1)). split; [lia|].
    apply of_Z_div_1.
Qed.

Lemma angles_ge_minus_5 (st : State) :
  reachable st -> Forall (fun a => of_Z (-5) <= a) (bladeAngles st).
Proof.
  induction 1 as [| st [r1 r2 | v] R IH Ok].
  - repeat constructor; to_Q; lra.
  - cbn [step tick bladeAngles]. cbn [event_ok] in Ok.
    apply andb_true_iff in Ok as [Ok1 _].
    destruct (gen_speed_range r1 Ok1) as [S0 _].
    unfold gen_angles. repeat constructor; to_Q; lra.
  - exact IH.
Qed.

(** X16.  In every reachable state every blade angle is at least -5 (the
    third blade can be below zero), and each is printed as an integer
    between -5 and 35 that is within 0.5 of the angle. *)
Theorem blade_angles_shown (st : State) :
  reachable st ->
  Forall (fun a =>
            of_Z (-5) <= a
            /\ (exists z : Z, (-5 <= z <= 35)%Z /\ bladeShown a = of_Z z)
            /\ dist (bladeShown a) a <= lit 0.5)
         (bladeAngles st).
Proof.
  intro R.
  pose proof (Forall_and (angles_ge_minus_5 st R) (angles_le_35 st R)) as F.
  revert F. apply Forall_impl. intros a [L U].
  split; [exact L|]. split; [now apply bladeShown_integer|].
  apply toFixed_0_close.
Qed.

Lemma blade_angles_shown_witness :
  Forall (fun a =>
            of_Z (-5) <= a
            /\ (exists z : Z, (-5 <= z <= 35)%Z /\ bladeShown a = of_Z z)
            /\ dist (bladeShown a) a <= lit 0.5)
         (bladeAngles (run sample_trace init)).
Proof.
  apply (blade_angles_shown (run sample_trace init)).
  apply reachable_run. vm_compute. reflexivity.
Defined.


(** X18.  In every reachable state the summary card counts three blades. *)
Theorem monitoring_three_blades (st : State) :
  reachable st -> monitoringBlades (render st) = 3%nat.
Proof. intro R. cbn [render monitoringBlades]. now apply three_angles. Qed.

Lemma monitoring_three_blades_witness :
  monitoringBlades (render (run sample_trace init)) = 3%nat.
Proof.
  apply (monitoring_three_blades (run sample_trace init)).
  apply reachable_run. vm_compute. reflexivity.
Defined.

(** The third blade is below zero after a tick that generates 1.0 m/s. *)
Example third_blade_negative :
  bladeAngles (tick (lit 0.066) (lit 0.25) init)
  = [of_Z 2; of_Z 7; of_Z (-3)].
Proof. Qc_decide. Qed.

Example pressure_of_top : pressure (lit 0.99999) = of_Z 1019.
Proof. Qc_decide. Qed.

Example humidity_of_top : humidity (lit 0.99999) = of_Z 99.
Proof. Qc_decide. Qed.

Example rotation_at_slider_max : rotationDuration (of_Z 25) = lit 0.3.
Proof. Qc_decide. Qed.
